(** * Workspace editing service

    A shallow embedding of
    [src/vs/workbench/services/workspace/node/workspaceEditingService.ts]:
    the [WorkspaceEditingService] class with its methods [supported],
    [addRoots], [removeRoots], [doSetRoots], [validateRoots],
    [createWorkspace] and [_doCreateWorkspace].

    The injected services are collaborators: every call to one of them is
    recorded in a trace, and what it answers is read from a [World].  A
    method is a computation in the monad [M], which carries the trace and the
    synchronous exceptions of JavaScript; a [TPromise] is a settled value,
    fulfilled or rejected, and [then_] chains a callback on it. *)

From Stdlib Require Import String Ascii List ZArith Lia Bool.
Import ListNotations.

Local Open Scope string_scope.
Local Open Scope list_scope.

(** ** JavaScript values the service handles *)

(** The two values a [TPromise<void>] of this file is fulfilled with:
    [void 0] and [null]. *)
Inductive JsVoid : Type :=
| undefined
| null.

Inductive Error : Type :=
| TypeError (message : string)
| Canceled
| ServiceError (message : string).

(** A settled promise. *)
Inductive TPromise (A : Type) : Type :=
| Fulfilled (value : A)
| Rejected (reason : Error).

Arguments Fulfilled {A} value.
Arguments Rejected {A} reason.

(** [TPromise.as(value)]. *)
Definition TPromise_as {A : Type} (value : A) : TPromise A := Fulfilled value.

(** JSON documents as the service builds them: strings, arrays and object
    literals (fields in the order they are written). *)
Unset Elimination Schemes.
Inductive Json : Type :=
| JString (s : string)
| JArray (items : list Json)
| JObject (fields : list (string * Json)).
Set Elimination Schemes.

(** Property lookup in an object literal; [None] when the document is not an
    object or has no such field (field names are case-sensitive). *)
Definition json_field (name : string) (doc : Json) : option Json :=
  match doc with
  | JObject fields =>
      match find (fun kv => String.eqb (fst kv) name) fields with
      | Some kv => Some (snd kv)
      | None => None
      end
  | _ => None
  end.

(** A [string[]] as a JSON value. *)
Definition json_strings (l : list string) : Json := JArray (map JString l).

(** The edit handed to [IJSONEditingService.write]: [{ key, value }]. *)
Record IJSONValue : Type := { key : string; value : Json }.

Inductive Severity : Type :=
| Ignore
| Info
| Warning
| SevError.

(** ** Arrays *)

(** [Array.prototype.indexOf] on an array of strings, with strict equality:
    the first position of [x], or [-1]. *)
Fixpoint indexOf_from (x : string) (l : list string) (i : Z) : Z :=
  match l with
  | [] => (-1)%Z
  | y :: l' => if String.eqb y x then i else indexOf_from x l' (i + 1)%Z
  end.

Definition indexOf (l : list string) (x : string) : Z := indexOf_from x l 0%Z.

(** [Array.prototype.filter] with a callback that also reads the position. *)
Fixpoint filter_from (p : string -> Z -> bool) (l : list string) (i : Z)
  : list string :=
  match l with
  | [] => []
  | y :: l' =>
      if p y i then y :: filter_from p l' (i + 1)%Z
      else filter_from p l' (i + 1)%Z
  end.

(** Modelled from the spec: [distinct] of [vs/base/common/arrays] is not
    among the sources.  The spec has the validated roots "deduplicated,
    preserving first-occurrence order": without a key function an element is
    kept exactly where it occurs for the first time in the array. *)
Definition distinct (array : list string) : list string :=
  filter_from (fun element position => Z.eqb (indexOf array element) position)
    array 0%Z.

(** Modelled from the spec: [equals] of [vs/base/common/arrays] is not among
    the sources.  The spec compares the two root sets "element-wise
    (order-sensitive)": same length, and strictly equal items position by
    position. *)
Fixpoint equals (one other : list string) : bool :=
  match one, other with
  | [], [] => true
  | a :: one', b :: other' => if String.eqb a b then equals one' other' else false
  | _, _ => false
  end.

(** The spec's own wording of deduplication, to compare [distinct] with:
    "duplicate canonical forms collapse to one entry, first occurrence wins". *)
Fixpoint first_occurrences (l : list string) : list string :=
  match l with
  | [] => []
  | x :: l' => x :: filter (fun y => negb (String.eqb y x)) (first_occurrences l')
  end.

(** The spec's wording of removal matching: a string "matches an entry" of
    a list of strings. *)
Definition occurs (x : string) (l : list string) : bool :=
  existsb (String.eqb x) l.

(** ** Resources *)

(** What the service uses of [vs/base/common/uri] and of node's [path]; the
    two modules are not among the sources, so the service is written over any
    implementation of them.  [toString root skipEncoding] is
    [root.toString(skipEncoding)], [fsPath root] is [root.fsPath],
    [URI_file p] is [URI.file(p)] and [path_join] is [path.join]. *)
Class Platform : Type := {
  URI : Type;
  toString : URI -> bool -> string;
  fsPath : URI -> string;
  URI_file : string -> URI;
  path_join : string -> string -> string
}.

(** ** Collaborators, traces and the monad of the service *)

(** Modelled from the spec: [generateUuid] of [vs/base/common/uuid] is not
    among the sources.  The spec has it generate "a fresh unique identifier":
    [issued] are the identifiers given out before, and the one the generator
    gives now, [generated], is none of them. *)
Record Generator : Type := {
  issued : list string;
  generated : string;
  generated_fresh : occurs generated issued = false
}.

Section Service.

Context {platform : Platform}.

(** [IWorkspace] as the service reads it: [roots] and the optional
    [configuration]. *)
Record IWorkspace : Type := {
  roots : list URI;
  configuration : option URI
}.

(** One call to an injected service (or to [uuid]), with its arguments. *)
Inductive Call : Type :=
| CHasWorkspace
| CGetWorkspace
| CAppQuality
| CAppSettingsHome
| CGenerateUuid
| CWrite (resource : URI) (edit : IJSONValue) (save : bool)
| CChoose (severity : Severity) (message : string) (options : list string)
    (cancelId : Z)
| COpenWindow (paths : list string).

(** What the collaborators answer.  A dismissed or failed prompt is a
    rejected promise of [w_choose]. *)
Record World : Type := {
  w_hasWorkspace : bool;
  w_getWorkspace : IWorkspace;
  w_appQuality : string;
  w_appSettingsHome : string;
  w_uuid : Generator;
  w_write : URI -> IJSONValue -> bool -> TPromise JsVoid;
  w_choose : Severity -> string -> list string -> Z -> TPromise Z;
  w_openWindow : list string -> TPromise JsVoid
}.

(** What [uuid.generateUuid()] answers. *)
Definition w_generateUuid (w : World) : string := generated (w_uuid w).

(** How a synchronous piece of code ends: with a value, or with an exception
    thrown. *)
Inductive Outcome (A : Type) : Type :=
| Returned (a : A)
| Thrown (e : Error).

Arguments Returned {A} a.
Arguments Thrown {A} e.

(** A computation reads the world and yields its outcome and the calls it
    made, in order. *)
Definition M (A : Type) : Type := World -> Outcome A * list Call.

Definition ret {A : Type} (a : A) : M A := fun _ => (Returned a, []).

Definition throw {A : Type} (e : Error) : M A := fun _ => (Thrown e, []).

Definition bind {A B : Type} (m : M A) (f : A -> M B) : M B :=
  fun w =>
    match m w with
    | (Returned a, t) => let (o, t') := f a w in (o, t ++ t')
    | (Thrown e, t) => (Thrown e, t)
    end.

Definition call {A : Type} (c : Call) (answer : World -> A) : M A :=
  fun w => (Returned (answer w), [c]).

Definition outcome {A : Type} (m : M A) (w : World) : Outcome A := fst (m w).

Definition trace {A : Type} (m : M A) (w : World) : list Call := snd (m w).

(** [promise.then(onFulfilled)]: the callback runs on a fulfilled promise
    only; an exception it throws rejects the promise that [then] returns. *)
Definition then_ {A B : Type} (p : TPromise A) (onFulfilled : A -> M (TPromise B))
  : M (TPromise B) :=
  match p with
  | Rejected e => ret (Rejected e)
  | Fulfilled a =>
      fun w =>
        match onFulfilled a w with
        | (Returned q, t) => (Returned q, t)
        | (Thrown e, t) => (Returned (Rejected e), t)
        end
  end.

End Service.

Arguments Returned {A} a.
Arguments Thrown {A} e.

Declare Scope service_scope.
Delimit Scope service_scope with service.
Notation "x <- m ;; k" := (bind m (fun x => k))
  (at level 100, m at next level, right associativity) : service_scope.

Local Open Scope service_scope.

(** ** The service *)

Section Methods.

Context {platform : Platform}.

(** The collaborators' methods. *)
Definition hasWorkspace : M bool := call CHasWorkspace w_hasWorkspace.
Definition getWorkspace : M IWorkspace := call CGetWorkspace w_getWorkspace.
Definition appQuality : M string := call CAppQuality w_appQuality.
Definition appSettingsHome : M string := call CAppSettingsHome w_appSettingsHome.
Definition generateUuid : M string := call CGenerateUuid w_generateUuid.

Definition write (resource : URI) (edit : IJSONValue) (save : bool)
  : M (TPromise JsVoid) :=
  call (CWrite resource edit save) (fun w => w_write w resource edit save).

Definition choose (severity : Severity) (message : string)
  (options : list string) (cancelId : Z) : M (TPromise Z) :=
  call (CChoose severity message options cancelId)
    (fun w => w_choose w severity message options cancelId).

Definition openWindow (paths : list string) : M (TPromise JsVoid) :=
  call (COpenWindow paths) (fun w => w_openWindow w paths).

(** An array argument may be [null] at run time: [None]. *)
Definition Nullable (A : Type) : Type := option A.

(** [[...a, ...b]]: spreading [null] throws. *)
Definition spread {A : Type} (a : list A) (b : Nullable (list A)) : M (list A) :=
  match b with
  | Some b' => ret (a ++ b')
  | None => throw (TypeError "object null is not iterable")
  end.

(** [a.map(f)]: reading a property of [null] throws. *)
Definition array_map {A B : Type} (a : Nullable (list A)) (f : A -> B)
  : M (list B) :=
  match a with
  | Some a' => ret (map f a')
  | None => throw (TypeError "Cannot read property 'map' of null")
  end.

(** A value in a condition: a reference to a method of the class, or a
    boolean.  A function object is truthy whatever it would return. *)
Inductive Condition : Type :=
| MethodRef (method : M bool)
| BoolValue (b : bool).

Definition ToBoolean (c : Condition) : bool :=
  match c with
  | MethodRef _ => true
  | BoolValue b => b
  end.

(** [private supported(): boolean] *)
Definition supported : M bool :=
  has <- hasWorkspace ;;
  if has then ret false
  else
    quality <- appQuality ;;
    ret (negb (String.eqb quality "stable")).

(** [private validateRoots(roots: URI[]): string[]] *)
Definition validateRoots (roots : Nullable (list URI)) : list string :=
  match roots with
  | None => []
  | Some roots' => distinct (map (fun root => toString root true) roots')
  end.

(** [private _doCreateWorkspace(folders: string[]): TPromise<string>] *)
Definition _doCreateWorkspace (folders : list string) : M (TPromise string) :=
  ID <- generateUuid ;;
  home <- appSettingsHome ;;
  let newConfiguration := path_join home (ID ++ ".vscode") in
  written <- write (URI_file newConfiguration)
               {| key := "";
                  value := JObject [("ID", JString ID);
                                    ("folders", json_strings folders)] |}
               true ;;
  then_ written (fun _ => ret (TPromise_as newConfiguration)).

(** [private createWorkspace(newRoots: string[]): TPromise<void>] *)
Definition createWorkspace (newRoots : list string) : M (TPromise JsVoid) :=
  chosen <- choose Info
    "This action will create a new workspace. Would you like to copy settings from current workspace?"
    ["Yes"; "No"] 1%Z ;;
  created <- then_ chosen (fun option => _doCreateWorkspace newRoots) ;;
  then_ created (fun newConfiguration => openWindow [newConfiguration]).

(** [private doSetRoots(newRoots: URI[]): TPromise<void>] *)
Definition doSetRoots (newRoots : Nullable (list URI)) : M (TPromise JsVoid) :=
  workspace <- getWorkspace ;;
  current <- getWorkspace ;;
  let currentWorkspaceRoots := map (fun root => fsPath root) (roots current) in
  let newWorkspaceRoots := validateRoots newRoots in
  if equals currentWorkspaceRoots newWorkspaceRoots then
    ret (TPromise_as undefined)
  else if negb (Nat.eqb (length newWorkspaceRoots) 0) then
    match configuration workspace with
    | None => createWorkspace newWorkspaceRoots
    | Some config =>
        write config
          {| key := "folders"; value := json_strings newWorkspaceRoots |} true
    end
  else
    ret (TPromise_as null).

(** [public addRoots(rootsToAdd: URI[]): TPromise<void>]; the condition is
    [!this.supported], the method itself and not a call of it. *)
Definition addRoots (rootsToAdd : Nullable (list URI)) : M (TPromise JsVoid) :=
  if negb (ToBoolean (MethodRef supported)) then
    ret (TPromise_as undefined)
  else
    workspace <- getWorkspace ;;
    newRoots <- spread (roots workspace) rootsToAdd ;;
    doSetRoots (Some newRoots).

(** [public removeRoots(rootsToRemove: URI[]): TPromise<void>] *)
Definition removeRoots (rootsToRemove : Nullable (list URI))
  : M (TPromise JsVoid) :=
  if negb (ToBoolean (MethodRef supported)) then
    ret (TPromise_as undefined)
  else
    workspace <- getWorkspace ;;
    rootsToRemoveRaw <- array_map rootsToRemove (fun root => toString root false) ;;
    doSetRoots
      (Some (filter
               (fun root =>
                  Z.eqb (indexOf rootsToRemoveRaw (toString root false)) (-1))
               (roots workspace))).

(** *** Reading a trace *)

(** The steps of the create-new-workspace path: the confirmation prompt, the
    materialization (a fresh identifier, a whole-document write with the
    empty key) and the window-open. *)
Definition is_prompt (c : Call) : bool :=
  match c with CChoose _ _ _ _ => true | _ => false end.

Definition is_materialization (c : Call) : bool :=
  match c with
  | CGenerateUuid => true
  | CWrite _ edit _ => String.eqb (key edit) ""
  | _ => false
  end.

Definition is_openWindow (c : Call) : bool :=
  match c with COpenWindow _ => true | _ => false end.

Definition is_write (c : Call) : bool :=
  match c with CWrite _ _ _ => true | _ => false end.

(** The documents handed to the writer, in order. *)
Definition written_documents (t : list Call) : list Json :=
  flat_map (fun c => match c with CWrite _ edit _ => [value edit] | _ => [] end)
    t.

Definition on_create_path (c : Call) : bool :=
  is_prompt c || is_materialization c || is_openWindow c.

(** The prompt of [createWorkspace], as a call. *)
Definition prompt : Call :=
  CChoose Info
    "This action will create a new workspace. Would you like to copy settings from current workspace?"
    ["Yes"; "No"] 1%Z.

Definition prompt_answer (w : World) : TPromise Z :=
  w_choose w Info
    "This action will create a new workspace. Would you like to copy settings from current workspace?"
    ["Yes"; "No"] 1%Z.

(** The file and the document of a materialization in world [w]. *)
Definition new_file (w : World) : string :=
  path_join (w_appSettingsHome w) (w_generateUuid w ++ ".vscode").

Definition new_document (w : World) (folders : list string) : IJSONValue :=
  {| key := "";
     value := JObject [("ID", JString (w_generateUuid w));
                       ("folders", json_strings folders)] |}.

(** The spec's wording of the desired set of [removeRoots]: the current roots
    "filtered to exclude any root whose canonical string form matches an entry
    in rootsToRemove", for a string form [form]. *)
Definition roots_without (form : URI -> string)
  (current rootsToRemove : list URI) : list URI :=
  filter (fun root => negb (occurs (form root) (map form rootsToRemove)))
    current.

(** A reconciliation that starts after the entry point has read the context
    once. *)
Definition reconcile_after_read (desired : IWorkspace -> list URI)
  : M (TPromise JsVoid) :=
  workspace <- getWorkspace ;;
  doSetRoots (Some (desired workspace)).

(** The folders a call hands to the writer: the value of an edit of the key
    [folders], or the [folders] field of a whole document. *)
Definition written_folders (c : Call) : option Json :=
  match c with
  | CWrite _ edit _ =>
      if String.eqb (key edit) "folders" then Some (value edit)
      else json_field "folders" (value edit)
  | _ => None
  end.

Definition is_getWorkspace (c : Call) : bool :=
  match c with CGetWorkspace => true | _ => false end.

Definition is_gate_read (c : Call) : bool :=
  match c with CHasWorkspace | CAppQuality => true | _ => false end.

(** How many calls of a kind a trace holds. *)
Definition count_calls (kind : Call -> bool) (t : list Call) : nat :=
  length (filter kind t).

Definition is_rejected {A : Type} (p : TPromise A) : bool :=
  match p with Rejected _ => true | Fulfilled _ => false end.

(** Whether the promise that call [c] gets in world [w] is a rejected one. *)
Definition call_rejected (w : World) (c : Call) : bool :=
  match c with
  | CWrite resource edit save => is_rejected (w_write w resource edit save)
  | CChoose severity message options cancelId =>
      is_rejected (w_choose w severity message options cancelId)
  | COpenWindow paths => is_rejected (w_openWindow w paths)
  | _ => false
  end.

(** No call follows a call that was rejected. *)
Fixpoint stops_at_rejection (w : World) (t : list Call) : bool :=
  match t with
  | [] => true
  | c :: t' =>
      if call_rejected w c then match t' with [] => true | _ :: _ => false end
      else stops_at_rejection w t'
  end.

Definition outcome_rejected {A : Type} (o : Outcome (TPromise A)) : bool :=
  match o with
  | Returned p => is_rejected p
  | Thrown _ => false
  end.

Definition outcome_thrown {A : Type} (o : Outcome A) : bool :=
  match o with
  | Returned _ => false
  | Thrown _ => true
  end.

(** World [w] with other answers for [hasWorkspace()] and [appQuality]. *)
Definition set_gate (has : bool) (quality : string) (w : World) : World :=
  {| w_hasWorkspace := has;
     w_getWorkspace := w_getWorkspace w;
     w_appQuality := quality;
     w_appSettingsHome := w_appSettingsHome w;
     w_uuid := w_uuid w;
     w_write := w_write w;
     w_choose := w_choose w;
     w_openWindow := w_openWindow w |}.

(** World [w] with another answer of the prompt. *)
Definition set_choice (answer : TPromise Z) (w : World) : World :=
  {| w_hasWorkspace := w_hasWorkspace w;
     w_getWorkspace := w_getWorkspace w;
     w_appQuality := w_appQuality w;
     w_appSettingsHome := w_appSettingsHome w;
     w_uuid := w_uuid w;
     w_write := w_write w;
     w_choose := fun _ _ _ _ => answer;
     w_openWindow := w_openWindow w |}.

(** The string forms of a list of roots. *)
Definition forms (skipEncoding : bool) (l : list URI) : list string :=
  map (fun root => toString root skipEncoding) l.

End Methods.

(** ** A concrete platform, for the examples *)

Module Posix.

(** Modelled from the spec: the [URI] class of [vs/base/common/uri] is not
    among the sources.  The spec has a Root as "a URI-like structure with
    scheme and filesystem path" whose canonical string form is taken "with
    encoding normalization disabled"; the other string form percent-encodes
    the components.  Authorities and Windows drive letters are left out. *)
Record Uri : Type := {
  scheme : string;
  path : string;
  query : string;
  fragment : string
}.

Definition is_unreserved (c : ascii) : bool :=
  let n := nat_of_ascii c in
  (Nat.leb 48 n && Nat.leb n 57) || (Nat.leb 65 n && Nat.leb n 90)
  || (Nat.leb 97 n && Nat.leb n 122)
  || Ascii.eqb c "-" || Ascii.eqb c "_" || Ascii.eqb c "." || Ascii.eqb c "~".

Definition hex_digit (n : nat) : ascii :=
  if Nat.ltb n 10 then ascii_of_nat (48 + n) else ascii_of_nat (55 + n).

Definition percent_encoded (c : ascii) : string :=
  let n := nat_of_ascii c in
  String "%" (String (hex_digit (n / 16)) (String (hex_digit (n mod 16)) "")).

(** Percent-encoding of one component; [keep] is the separator that stays as
    it is (the slash of a path). *)
Fixpoint encode_component (keep : ascii -> bool) (s : string) : string :=
  match s with
  | "" => ""
  | String c s' =>
      (if is_unreserved c || keep c then String c "" else percent_encoded c)
      ++ encode_component keep s'
  end.

Definition encoder (skipEncoding : bool) (keep : ascii -> bool) (s : string)
  : string :=
  if skipEncoding then s else encode_component keep s.

Definition is_empty (s : string) : bool := String.eqb s "".

Definition uri_toString (uri : Uri) (skipEncoding : bool) : string :=
  (if is_empty (scheme uri) then "" else scheme uri ++ ":")
  ++ (if String.eqb (scheme uri) "file" then "//" else "")
  ++ encoder skipEncoding (fun c => Ascii.eqb c "/") (path uri)
  ++ (if is_empty (query uri) then ""
      else "?" ++ encoder skipEncoding (fun _ => false) (query uri))
  ++ (if is_empty (fragment uri) then ""
      else "#" ++ encoder skipEncoding (fun _ => false) (fragment uri)).

Definition uri_fsPath (uri : Uri) : string := path uri.

Definition uri_file (p : string) : Uri :=
  {| scheme := "file"; path := p; query := ""; fragment := "" |}.

(** Modelled from the spec: node's [path.join] is not among the sources; the
    spec has the file path made "by joining the application's settings-home
    directory with <id>.<workspace-extension>". *)
Definition join (dir name : string) : string := dir ++ "/" ++ name.

#[export] Instance platform : Platform := {|
  URI := Uri;
  toString := uri_toString;
  fsPath := uri_fsPath;
  URI_file := uri_file;
  path_join := join
|}.

(** Three folders and a configuration file. *)
Definition A : Uri := uri_file "/home/user/a".
Definition B : Uri := uri_file "/home/user/b".
Definition C : Uri := uri_file "/home/user/c".
Definition workspaceFile : Uri := uri_file "/home/user/.config/Code/ws.vscode".

(** Two resources with one decoded string form and two encoded ones. *)
Definition queryWithHash : Uri :=
  {| scheme := "file"; path := "/home/user/a"; query := "x#y"; fragment := "" |}.
Definition queryAndFragment : Uri :=
  {| scheme := "file"; path := "/home/user/a"; query := "x"; fragment := "y" |}.

(** A resource without a scheme: its string form is its path. *)
Definition bare : Uri :=
  {| scheme := ""; path := "/home/user/a"; query := ""; fragment := "" |}.

(** A generator that has given out one identifier and gives another. *)
Definition uuids : Generator :=
  {| issued := ["6ba7b810-9dad-11d1-80b4-00c04fd430c8"];
     generated := "1b4e28ba-2fa1-11d2-883f-0016d3cca427";
     generated_fresh := eq_refl |}.

(** A world in which every collaborator succeeds. *)
Definition world (has : bool) (quality : string) (current : list Uri)
  (config : option Uri) : World :=
  {| w_hasWorkspace := has;
     w_getWorkspace := {| roots := current; configuration := config |};
     w_appQuality := quality;
     w_appSettingsHome := "/home/user/.config/Code/User";
     w_uuid := uuids;
     w_write := fun _ _ _ => Fulfilled undefined;
     w_choose := fun _ _ _ cancelId => Fulfilled cancelId;
     w_openWindow := fun _ => Fulfilled undefined |}.

(** The same world with a prompt that is dismissed. *)
Definition world_dismissed (current : list Uri) (config : option Uri) : World :=
  {| w_hasWorkspace := false;
     w_getWorkspace := {| roots := current; configuration := config |};
     w_appQuality := "insider";
     w_appSettingsHome := "/home/user/.config/Code/User";
     w_uuid := uuids;
     w_write := fun _ _ _ => Fulfilled undefined;
     w_choose := fun _ _ _ _ => Rejected Canceled;
     w_openWindow := fun _ => Fulfilled undefined |}.

(** The same world with a disk that refuses every write. *)
Definition world_readonly (current : list Uri) (config : option Uri) : World :=
  {| w_hasWorkspace := false;
     w_getWorkspace := {| roots := current; configuration := config |};
     w_appQuality := "insider";
     w_appSettingsHome := "/home/user/.config/Code/User";
     w_uuid := uuids;
     w_write := fun _ _ _ => Rejected (ServiceError "EACCES");
     w_choose := fun _ _ _ cancelId => Fulfilled cancelId;
     w_openWindow := fun _ => Fulfilled undefined |}.

(** A world whose window opener fails. *)
Definition world_no_window (current : list Uri) (config : option Uri) : World :=
  {| w_hasWorkspace := false;
     w_getWorkspace := {| roots := current; configuration := config |};
     w_appQuality := "insider";
     w_appSettingsHome := "/home/user/.config/Code/User";
     w_uuid := uuids;
     w_write := fun _ _ _ => Fulfilled undefined;
     w_choose := fun _ _ _ cancelId => Fulfilled cancelId;
     w_openWindow := fun _ => Rejected (ServiceError "no display") |}.

End Posix.

(** * Properties *)

(** ** Arrays *)

Section ArrayFacts.

Lemma occurs_In (x : string) (l : list string) :
  occurs x l = true <-> In x l.
Proof.
  unfold occurs. rewrite existsb_exists. split.
  - intros [y [Hy Heq]]. apply String.eqb_eq in Heq. now subst.
  - intros Hx. exists x. split; [assumption | apply String.eqb_refl].
Qed.

Lemma occurs_app (x : string) (l l' : list string) :
  occurs x (l ++ l') = occurs x l || occurs x l'.
Proof. unfold occurs. apply existsb_app. Qed.

Lemma indexOf_from_absent (x : string) (l : list string) (i : Z) :
  occurs x l = false -> indexOf_from x l i = (-1)%Z.
Proof.
  revert i. induction l as [|y l IH]; intros i Hx; simpl in *.
  - reflexivity.
  - apply orb_false_iff in Hx. destruct Hx as [Hxy Hl].
    rewrite String.eqb_sym, Hxy. now apply IH.
Qed.

Lemma indexOf_from_before (x : string) (pre l : list string) (i : Z) :
  occurs x pre = true ->
  (i <= indexOf_from x (pre ++ l) i < i + Z.of_nat (length pre))%Z.
Proof.
  revert i. induction pre as [|y pre IH]; intros i Hx; simpl in *.
  - discriminate.
  - destruct (String.eqb y x) eqn:Hyx.
    + lia.
    + rewrite String.eqb_sym, Hyx in Hx. simpl in Hx.
      specialize (IH (i + 1)%Z Hx). lia.
Qed.

Lemma indexOf_from_here (x : string) (pre l : list string) (i : Z) :
  occurs x pre = false ->
  indexOf_from x (pre ++ x :: l) i = (i + Z.of_nat (length pre))%Z.
Proof.
  revert i. induction pre as [|y pre IH]; intros i Hx; simpl in *.
  - rewrite String.eqb_refl. lia.
  - apply orb_false_iff in Hx. destruct Hx as [Hxy Hpre].
    rewrite String.eqb_sym, Hxy. rewrite IH by assumption. lia.
Qed.

(** [indexOf] answers [-1] exactly for a string that does not occur. *)
Lemma indexOf_minus_one (l : list string) (x : string) :
  Z.eqb (indexOf l x) (-1) = negb (occurs x l).
Proof.
  unfold indexOf. destruct (occurs x l) eqn:Hx; simpl.
  - pose proof (indexOf_from_before x l [] 0%Z Hx) as Hb.
    rewrite app_nil_r in Hb. apply Z.eqb_neq. lia.
  - rewrite indexOf_from_absent by assumption. reflexivity.
Qed.

Lemma filter_twice {A : Type} (f g : A -> bool) (l : list A) :
  filter f (filter g l) = filter (fun x => g x && f x) l.
Proof.
  induction l as [|x l IH]; simpl; [reflexivity|].
  destruct (g x); simpl; [destruct (f x)|]; now rewrite IH.
Qed.

Lemma filter_from_first_occurrences (suf pre : list string) :
  filter_from
    (fun element position => Z.eqb (indexOf (pre ++ suf) element) position)
    suf (Z.of_nat (length pre))
  = filter (fun y => negb (occurs y pre)) (first_occurrences suf).
Proof.
  revert pre. induction suf as [|y suf IH]; intros pre; [reflexivity|].
  cbn [filter_from first_occurrences filter].
  assert (Htail :
    filter_from
      (fun element position =>
         Z.eqb (indexOf (pre ++ y :: suf) element) position)
      suf (Z.of_nat (length pre) + 1)
    = filter (fun z => negb (occurs z pre))
        (filter (fun z => negb (String.eqb z y)) (first_occurrences suf))).
  { replace (pre ++ y :: suf) with ((pre ++ [y]) ++ suf)
      by (rewrite <- app_assoc; reflexivity).
    replace (Z.of_nat (length pre) + 1)%Z with (Z.of_nat (length (pre ++ [y])))
      by (rewrite length_app; simpl; lia).
    rewrite IH, filter_twice. apply filter_ext. intros z.
    rewrite occurs_app. unfold occurs at 2. simpl.
    rewrite orb_false_r, negb_orb. apply andb_comm. }
  rewrite Htail. unfold indexOf.
  destruct (occurs y pre) eqn:Hy; simpl.
  - pose proof (indexOf_from_before y pre (y :: suf) 0%Z Hy) as Hb.
    replace (Z.eqb _ _) with false; [reflexivity|].
    symmetry. apply Z.eqb_neq. lia.
  - rewrite indexOf_from_here by assumption. simpl.
    now rewrite Z.eqb_refl.
Qed.

(** [distinct] keeps the first occurrences, in their order. *)
Lemma distinct_first_occurrences (l : list string) :
  distinct l = first_occurrences l.
Proof.
  unfold distinct.
  pose proof (filter_from_first_occurrences l []) as H. simpl in H.
  rewrite H. clear H.
  induction (first_occurrences l) as [|x r IH]; simpl; [reflexivity|].
  now rewrite IH.
Qed.

Lemma first_occurrences_In (l : list string) (x : string) :
  In x (first_occurrences l) <-> In x l.
Proof.
  induction l as [|y l IH]; simpl; [tauto|].
  rewrite filter_In, IH, negb_true_iff, String.eqb_neq.
  destruct (string_dec y x) as [->|Hne]; [tauto|].
  split; [tauto|]. intros [H|H]; [tauto|]. right. split; [assumption|].
  congruence.
Qed.

Lemma first_occurrences_NoDup (l : list string) :
  NoDup (first_occurrences l).
Proof.
  induction l as [|y l IH]; simpl; constructor.
  - rewrite filter_In, negb_true_iff, String.eqb_neq. tauto.
  - now apply NoDup_filter.
Qed.

Lemma first_occurrences_id (l : list string) :
  NoDup l -> first_occurrences l = l.
Proof.
  induction 1 as [|x l Hx Hl IH]; simpl; [reflexivity|].
  rewrite IH. f_equal.
  apply forallb_filter_id. apply forallb_forall. intros z Hz.
  apply negb_true_iff, String.eqb_neq. congruence.
Qed.

Lemma equals_eq (one other : list string) :
  equals one other = true <-> one = other.
Proof.
  revert other. induction one as [|a one IH]; intros [|b other]; simpl;
    try (split; [discriminate | congruence]); [tauto|].
  destruct (String.eqb a b) eqn:Hab.
  - apply String.eqb_eq in Hab. subst. rewrite IH.
    split; congruence.
  - apply String.eqb_neq in Hab. split; [discriminate | congruence].
Qed.

Lemma equals_length (one other : list string) :
  equals one other = true -> length one = length other.
Proof. intros H. apply equals_eq in H. now subst. Qed.

Lemma filter_all {A : Type} (l : list A) : filter (fun _ => true) l = l.
Proof. induction l as [|x l IH]; simpl; [reflexivity | now rewrite IH]. Qed.

Lemma filter_none {A : Type} (f : A -> bool) (l : list A) :
  (forall x, In x l -> f x = false) -> filter f l = [].
Proof.
  induction l as [|x l IH]; intros H; simpl; [reflexivity|].
  rewrite (H x) by (left; reflexivity). apply IH.
  intros y Hy. apply H. now right.
Qed.

(** The first occurrences of a concatenation: those of the first list, then
    those of the second list that the first list does not hold. *)
Lemma first_occurrences_app (l l' : list string) :
  first_occurrences (l ++ l')
  = first_occurrences l
    ++ filter (fun y => negb (occurs y l)) (first_occurrences l').
Proof.
  induction l as [|x l IH]; simpl.
  - now rewrite filter_all.
  - rewrite IH, filter_app, filter_twice. do 2 f_equal.
    apply filter_ext. intros y. unfold occurs. simpl.
    rewrite negb_orb. apply andb_comm.
Qed.

End ArrayFacts.

(** ** Running the methods *)

Section ServiceFacts.

Context {platform : Platform}.

Ltac run_service :=
  unfold reconcile_after_read, addRoots, removeRoots, doSetRoots,
    createWorkspace, _doCreateWorkspace, then_, spread, array_map, write,
    choose, openWindow, getWorkspace, generateUuid, appSettingsHome, bind,
    call, ret, throw, TPromise_as, prompt_answer, new_document, new_file,
    prompt in *;
  cbn [ToBoolean negb fst snd app] in *.

(** [_doCreateWorkspace] asks for an identifier, reads the settings home and
    writes the document; it answers the path when the write succeeds. *)
Lemma _doCreateWorkspace_run (w : World) (folders : list string) :
  _doCreateWorkspace folders w
  = (Returned
       match w_write w (URI_file (new_file w)) (new_document w folders) true with
       | Fulfilled _ => Fulfilled (new_file w)
       | Rejected e => Rejected e
       end,
     [CGenerateUuid; CAppSettingsHome;
      CWrite (URI_file (new_file w)) (new_document w folders) true]).
Proof.
  run_service.
  destruct (w_write w _ _ true); reflexivity.
Qed.

(** [createWorkspace], by the answers of its three collaborators. *)
Lemma createWorkspace_run (w : World) (newRoots : list string) :
  createWorkspace newRoots w
  = match prompt_answer w with
    | Rejected e => (Returned (Rejected e), [prompt])
    | Fulfilled _ =>
        match
          w_write w (URI_file (new_file w)) (new_document w newRoots) true
        with
        | Rejected e =>
            (Returned (Rejected e),
             [prompt; CGenerateUuid; CAppSettingsHome;
              CWrite (URI_file (new_file w)) (new_document w newRoots) true])
        | Fulfilled _ =>
            (Returned (w_openWindow w [new_file w]),
             [prompt; CGenerateUuid; CAppSettingsHome;
              CWrite (URI_file (new_file w)) (new_document w newRoots) true;
              COpenWindow [new_file w]])
        end
    end.
Proof.
  run_service.
  destruct (w_choose w _ _ _ _); [|reflexivity].
  destruct (w_write w _ _ true); reflexivity.
Qed.

(** [doSetRoots], branch by branch. *)
Lemma doSetRoots_run (w : World) (newRoots : Nullable (list URI)) :
  doSetRoots newRoots w
  = if equals (map (fun root => fsPath root) (roots (w_getWorkspace w)))
         (validateRoots newRoots)
    then (Returned (Fulfilled undefined), [CGetWorkspace; CGetWorkspace])
    else if negb (Nat.eqb (length (validateRoots newRoots)) 0) then
      match configuration (w_getWorkspace w) with
      | None =>
          (outcome (createWorkspace (validateRoots newRoots)) w,
           [CGetWorkspace; CGetWorkspace]
           ++ trace (createWorkspace (validateRoots newRoots)) w)
      | Some config =>
          (Returned
             (w_write w config
                {| key := "folders";
                   value := json_strings (validateRoots newRoots) |} true),
           [CGetWorkspace; CGetWorkspace;
            CWrite config
              {| key := "folders";
                 value := json_strings (validateRoots newRoots) |} true])
      end
    else (Returned (Fulfilled null), [CGetWorkspace; CGetWorkspace]).
Proof.
  unfold doSetRoots, bind, getWorkspace, call, ret, write, TPromise_as,
    outcome, trace.
  cbn [app].
  destruct (equals _ _); [reflexivity|].
  destruct (negb _); [|reflexivity].
  destruct (configuration _); [reflexivity|].
  destruct (createWorkspace _ w); reflexivity.
Qed.

(** When nothing changes, [doSetRoots] only reads the context. *)
Lemma doSetRoots_unchanged (w : World) (newRoots : Nullable (list URI)) :
  equals (map (fun root => fsPath root) (roots (w_getWorkspace w)))
    (validateRoots newRoots) = true ->
  doSetRoots newRoots w
  = (Returned (Fulfilled undefined), [CGetWorkspace; CGetWorkspace]).
Proof. intros H. rewrite doSetRoots_run, H. reflexivity. Qed.

(** The two entry points never take the gate: they read the context and
    reconcile. *)
Lemma addRoots_run (w : World) (rootsToAdd : list URI) :
  addRoots (Some rootsToAdd) w
  = reconcile_after_read (fun workspace => roots workspace ++ rootsToAdd) w.
Proof.
  unfold addRoots, reconcile_after_read. cbn [ToBoolean negb].
  unfold bind, spread, getWorkspace, call, ret. cbn -[doSetRoots].
  destruct (doSetRoots _ w); reflexivity.
Qed.

Lemma reconcile_after_read_run (w : World) (desired : IWorkspace -> list URI) :
  reconcile_after_read desired w
  = (outcome (doSetRoots (Some (desired (w_getWorkspace w)))) w,
     CGetWorkspace :: trace (doSetRoots (Some (desired (w_getWorkspace w)))) w).
Proof.
  unfold reconcile_after_read, bind, getWorkspace, call, outcome, trace.
  destruct (doSetRoots _ w); reflexivity.
Qed.

Lemma validateRoots_nil (l : list URI) :
  validateRoots (Some l) = [] -> l = [].
Proof.
  unfold validateRoots. rewrite distinct_first_occurrences.
  destruct l; [reflexivity | discriminate].
Qed.

Lemma length_zero_nil {A : Type} (l : list A) :
  Nat.eqb (length l) 0 = true <-> l = [].
Proof. destruct l; simpl; split; congruence. Qed.

End ServiceFacts.

(** ** The Root Validator *)

Section Validator.

Context {platform : Platform}.

(** C5: [validateRoots] of a sequence of roots is the sequence of their
    string forms [toString(true)] with every duplicate collapsed to its first
    occurrence, in the order of the first occurrences: it has no duplicates
    and holds exactly the string forms of the roots; [validateRoots] of
    [null] is the empty sequence, not an error. *)
Theorem validateRoots_first_occurrences :
  validateRoots None = []
  /\ forall R : list URI,
       validateRoots (Some R)
       = first_occurrences (map (fun root => toString root true) R)
       /\ NoDup (validateRoots (Some R))
       /\ (forall s : string,
             In s (validateRoots (Some R))
             <-> exists root, In root R /\ toString root true = s).
Proof.
  split; [reflexivity|]. intros R. unfold validateRoots.
  rewrite distinct_first_occurrences. split; [reflexivity|]. split.
  - apply first_occurrences_NoDup.
  - intros s. rewrite first_occurrences_In, in_map_iff.
    split; intros [root [H1 H2]]; exists root; tauto.
Qed.

Lemma validateRoots_distinct_forms (R : list URI) :
  NoDup (map (fun root => toString root true) R) ->
  validateRoots (Some R) = map (fun root => toString root true) R.
Proof.
  intros H. unfold validateRoots.
  rewrite distinct_first_occurrences. now apply first_occurrences_id.
Qed.

End Validator.

(** ** The Root-Set Reconciler *)

Section Reconciler.

Context {platform : Platform}.

(** The run of [addRoots] on a workspace with a configuration, when the
    comparison of [doSetRoots] finds a difference. *)
Lemma addRoots_compared_different (w : World) (rootsToAdd : list URI)
  (config : URI) :
  configuration (w_getWorkspace w) = Some config ->
  equals (map (fun root => fsPath root) (roots (w_getWorkspace w)))
    (validateRoots (Some (roots (w_getWorkspace w) ++ rootsToAdd))) = false ->
  addRoots (Some rootsToAdd) w
  = (Returned
       (w_write w config
          {| key := "folders";
             value :=
               json_strings
                 (validateRoots (Some (roots (w_getWorkspace w) ++ rootsToAdd)))
          |} true),
     [CGetWorkspace; CGetWorkspace; CGetWorkspace;
      CWrite config
        {| key := "folders";
           value :=
             json_strings
               (validateRoots (Some (roots (w_getWorkspace w) ++ rootsToAdd)))
        |} true]).
Proof.
  intros Hconfig Hchanged.
  rewrite addRoots_run, reconcile_after_read_run.
  unfold outcome, trace. rewrite doSetRoots_run, Hchanged, Hconfig.
  destruct (Nat.eqb _ 0) eqn:Hempty; [|reflexivity].
  (* an empty validated set leaves no current root: nothing has changed *)
  apply length_zero_nil in Hempty.
  rewrite Hempty in Hchanged.
  apply validateRoots_nil, app_eq_nil in Hempty.
  destruct Hempty as [Hroots _]. rewrite Hroots in Hchanged.
  discriminate.
Qed.

Lemma validateRoots_concatenated (current added : list URI) :
  validateRoots (Some (current ++ added))
  = first_occurrences (forms true (current ++ added)).
Proof. unfold validateRoots, forms. apply distinct_first_occurrences. Qed.

(** A desired set that is not the current root set is not the list of the
    paths of the current roots either: it is longer. *)
Lemma changed_set_is_longer (current added : list URI) :
  NoDup (forms true current) ->
  first_occurrences (forms true (current ++ added)) <> forms true current ->
  length current < length (first_occurrences (forms true (current ++ added))).
Proof.
  intros Hset Hchanged. unfold forms in *.
  rewrite map_app, first_occurrences_app in *.
  rewrite (first_occurrences_id _ Hset) in *.
  rewrite length_app, length_map.
  destruct (filter _ _) as [|s rest].
  - rewrite app_nil_r in Hchanged. contradiction.
  - simpl. lia.
Qed.

(** C3: [addRoots] computes the desired set as the current roots followed by
    [rootsToAdd], deduplicated by the Validator: the first occurrences of
    their string forms, without duplicates.  With a configuration, when the
    set changed (the current roots are a root set, of pairwise different
    string forms, and the desired set is another list than theirs), the
    writer is called once, on that configuration, with the key [folders] and
    the whole desired set for value, and its promise is the result; and so it
    is, for any current roots, when the desired set is not the list of their
    paths, which is what [doSetRoots] compares it with. *)
Theorem addRoots_writes_folders (w : World) (rootsToAdd : list URI)
  (config : URI) :
  configuration (w_getWorkspace w) = Some config ->
  validateRoots (Some (roots (w_getWorkspace w) ++ rootsToAdd))
  = first_occurrences (forms true (roots (w_getWorkspace w) ++ rootsToAdd))
  /\ NoDup
       (first_occurrences
          (forms true (roots (w_getWorkspace w) ++ rootsToAdd)))
  /\ (NoDup (forms true (roots (w_getWorkspace w))) ->
      first_occurrences (forms true (roots (w_getWorkspace w) ++ rootsToAdd))
      <> forms true (roots (w_getWorkspace w)) ->
      addRoots (Some rootsToAdd) w
      = (Returned
           (w_write w config
              {| key := "folders";
                 value :=
                   json_strings
                     (first_occurrences
                        (forms true (roots (w_getWorkspace w) ++ rootsToAdd)))
              |} true),
         [CGetWorkspace; CGetWorkspace; CGetWorkspace;
          CWrite config
            {| key := "folders";
               value :=
                 json_strings
                   (first_occurrences
                      (forms true (roots (w_getWorkspace w) ++ rootsToAdd)))
            |} true]))
  /\ (first_occurrences (forms true (roots (w_getWorkspace w) ++ rootsToAdd))
      <> map (fun root => fsPath root) (roots (w_getWorkspace w)) ->
      addRoots (Some rootsToAdd) w
      = (Returned
           (w_write w config
              {| key := "folders";
                 value :=
                   json_strings
                     (first_occurrences
                        (forms true (roots (w_getWorkspace w) ++ rootsToAdd)))
              |} true),
         [CGetWorkspace; CGetWorkspace; CGetWorkspace;
          CWrite config
            {| key := "folders";
               value :=
                 json_strings
                   (first_occurrences
                      (forms true (roots (w_getWorkspace w) ++ rootsToAdd)))
            |} true])).
Proof.
  intros Hconfig.
  assert (Hpaths :
    first_occurrences (forms true (roots (w_getWorkspace w) ++ rootsToAdd))
    <> map (fun root => fsPath root) (roots (w_getWorkspace w)) ->
    addRoots (Some rootsToAdd) w
    = (Returned
         (w_write w config
            {| key := "folders";
               value :=
                 json_strings
                   (first_occurrences
                      (forms true (roots (w_getWorkspace w) ++ rootsToAdd)))
            |} true),
       [CGetWorkspace; CGetWorkspace; CGetWorkspace;
        CWrite config
          {| key := "folders";
             value :=
               json_strings
                 (first_occurrences
                    (forms true (roots (w_getWorkspace w) ++ rootsToAdd)))
          |} true])).
  { intros Hdiff. rewrite <- validateRoots_concatenated in *.
    apply addRoots_compared_different; [assumption|].
    destruct (equals _ _) eqn:Hsame; [|reflexivity].
    apply equals_eq in Hsame. now rewrite Hsame in Hdiff. }
  split; [apply validateRoots_concatenated|].
  split; [apply first_occurrences_NoDup|].
  split; [|exact Hpaths].
  intros Hset Hchanged. apply Hpaths. intros Hsame.
  pose proof (changed_set_is_longer _ _ Hset Hchanged) as Hlonger.
  rewrite Hsame, length_map in Hlonger. lia.
Qed.

(** C4, as amended: [removeRoots] reconciles towards the current roots
    without those whose encoded string form [toString()] is that of an entry
    of [rootsToRemove]; the Validator then takes the decoded form
    [toString(true)] of what is left. *)
Theorem removeRoots_matches_encoded_form (w : World) (rootsToRemove : list URI) :
  removeRoots (Some rootsToRemove) w
  = reconcile_after_read
      (fun workspace =>
         roots_without (fun root => toString root false)
           (roots workspace) rootsToRemove) w.
Proof.
  assert (Hsame :
    filter
      (fun root =>
         Z.eqb
           (indexOf (map (fun root => toString root false) rootsToRemove)
              (toString root false)) (-1))
      (roots (w_getWorkspace w))
    = roots_without (fun root => toString root false)
        (roots (w_getWorkspace w)) rootsToRemove).
  { apply filter_ext. intros root. apply indexOf_minus_one. }
  unfold removeRoots, reconcile_after_read. cbn [ToBoolean negb].
  unfold bind, array_map, getWorkspace, call, ret. cbn -[doSetRoots].
  rewrite Hsame.
  destruct (doSetRoots _ w); reflexivity.
Qed.

(** C9: a reconciliation whose validated set is empty while the current set
    is not reads the context and does nothing else: no exception, no write,
    no prompt, no materialization, no window; its promise is fulfilled. *)
Theorem doSetRoots_empty_is_noop (w : World) (newRoots : Nullable (list URI)) :
  validateRoots newRoots = [] ->
  equals (map (fun root => fsPath root) (roots (w_getWorkspace w)))
    (validateRoots newRoots) = false ->
  doSetRoots newRoots w
  = (Returned (Fulfilled null), [CGetWorkspace; CGetWorkspace]).
Proof.
  intros Hempty Hchanged.
  rewrite doSetRoots_run, Hchanged, Hempty. reflexivity.
Qed.

(** C10: with [null] for its argument each entry point throws a [TypeError]
    after one read of the context, where [validateRoots] answers the empty
    sequence. *)
Theorem entry_points_throw_on_null (w : World) :
  addRoots None w
  = (Thrown (TypeError "object null is not iterable"), [CGetWorkspace])
  /\ removeRoots None w
     = (Thrown (TypeError "Cannot read property 'map' of null"),
        [CGetWorkspace])
  /\ validateRoots None = [].
Proof. repeat split. Qed.

End Reconciler.

(** ** The Workspace Materializer and the Change Applicator *)

Section CreatePath.

Context {platform : Platform}.

(** C8, as amended: for every folders sequence, [_doCreateWorkspace]
    generates a fresh unique identifier (one call of the generator, whose
    answer is none of the identifiers given out before), joins the settings
    home with [<identifier>.vscode], and calls the writer once on that file
    with the empty key, which writes the whole document, the object with the
    top-level fields [ID] (the identifier; the field is not named [id]) and
    [folders] (the folders given), and the flag [true]; when the write is
    fulfilled it answers the path of the file, and otherwise the rejection of
    the write. *)
Theorem _doCreateWorkspace_writes_document (w : World) (folders : list string) :
  _doCreateWorkspace folders w
  = (Returned
       match
         w_write w
           (URI_file (path_join (w_appSettingsHome w)
                        (w_generateUuid w ++ ".vscode")))
           {| key := "";
              value := JObject [("ID", JString (w_generateUuid w));
                                ("folders", json_strings folders)] |}
           true
       with
       | Fulfilled _ =>
           Fulfilled (path_join (w_appSettingsHome w)
                        (w_generateUuid w ++ ".vscode"))
       | Rejected e => Rejected e
       end,
     [CGenerateUuid; CAppSettingsHome;
      CWrite
        (URI_file (path_join (w_appSettingsHome w)
                     (w_generateUuid w ++ ".vscode")))
        {| key := "";
           value := JObject [("ID", JString (w_generateUuid w));
                             ("folders", json_strings folders)] |}
        true])
  /\ map (json_field "ID") (written_documents (trace (_doCreateWorkspace folders) w))
     = [Some (JString (w_generateUuid w))]
  /\ map (json_field "folders")
       (written_documents (trace (_doCreateWorkspace folders) w))
     = [Some (json_strings folders)]
  /\ map (json_field "id") (written_documents (trace (_doCreateWorkspace folders) w))
     = [None]
  /\ ~ In (w_generateUuid w) (issued (w_uuid w)).
Proof.
  unfold trace. rewrite _doCreateWorkspace_run.
  repeat split.
  intros Hissued. apply occurs_In in Hissued. unfold w_generateUuid in Hissued.
  rewrite generated_fresh in Hissued. discriminate.
Qed.

(** C7: in [createWorkspace], a prompt that is rejected (failed or
    dismissed) is the only call made, and its rejection is the result: no
    file is written and no window is opened; and when the write of the new
    file is rejected, no window is opened and the result is a rejection. *)
Theorem createWorkspace_stops_at_failure (w : World) (newRoots : list string) :
  (forall e : Error,
     prompt_answer w = Rejected e ->
     createWorkspace newRoots w = (Returned (Rejected e), [prompt]))
  /\ (forall e : Error,
        w_write w (URI_file (new_file w)) (new_document w newRoots) true
        = Rejected e ->
        existsb is_openWindow (trace (createWorkspace newRoots) w) = false
        /\ exists e' : Error,
             outcome (createWorkspace newRoots) w = Returned (Rejected e')).
Proof.
  split; intros e H; unfold trace, outcome; rewrite createWorkspace_run.
  - rewrite H. reflexivity.
  - rewrite H. destruct (prompt_answer w) as [answer|e0]; cbn.
    + split; [reflexivity | now exists e].
    + split; [reflexivity | now exists e0].
Qed.

Lemma createWorkspace_prompts (w : World) (newRoots : list string) :
  existsb is_prompt (trace (createWorkspace newRoots) w) = true
  /\ existsb on_create_path (trace (createWorkspace newRoots) w) = true.
Proof.
  unfold trace. rewrite createWorkspace_run.
  destruct (prompt_answer w); [destruct (w_write w _ _ true)|]; split;
    reflexivity.
Qed.

(** C6, as amended: a reconciliation takes the create-new-workspace path if
    and only if the validated set differs from the current one, is not empty,
    and the workspace has no configuration; then it runs [createWorkspace] on
    the validated set, and otherwise it makes no prompt, no materialization
    and opens no window. *)
Theorem create_path_iff_changed (w : World) (newRoots : Nullable (list URI)) :
  (existsb on_create_path (trace (doSetRoots newRoots) w) = true
   <-> equals (map (fun root => fsPath root) (roots (w_getWorkspace w)))
         (validateRoots newRoots) = false
       /\ validateRoots newRoots <> []
       /\ configuration (w_getWorkspace w) = None)
  /\ (existsb is_prompt (trace (doSetRoots newRoots) w) = true
      <-> existsb on_create_path (trace (doSetRoots newRoots) w) = true)
  /\ (existsb on_create_path (trace (doSetRoots newRoots) w) = true ->
      doSetRoots newRoots w
      = (outcome (createWorkspace (validateRoots newRoots)) w,
         [CGetWorkspace; CGetWorkspace]
         ++ trace (createWorkspace (validateRoots newRoots)) w)).
Proof.
  pose proof (createWorkspace_prompts w (validateRoots newRoots)) as [Hp Hc].
  unfold trace at 1 2 3 4. rewrite doSetRoots_run.
  destruct (equals _ _) eqn:Hequals.
  { cbn. repeat split; try discriminate. intros [H _]. discriminate. }
  destruct (Nat.eqb _ 0) eqn:Hempty; cbn [negb].
  { apply length_zero_nil in Hempty.
    cbn. repeat split; try discriminate. intros [_ [H _]]. contradiction. }
  destruct (configuration (w_getWorkspace w)) as [config|] eqn:Hconfig.
  { cbn. repeat split; try discriminate. intros [_ [_ H]]. discriminate. }
  cbn [snd app existsb on_create_path is_prompt is_materialization
       is_openWindow orb].
  rewrite Hp, Hc. repeat split; try reflexivity.
  intros Hnil. rewrite Hnil in Hempty. discriminate.
Qed.

End CreatePath.

(** ** The service on the concrete platform *)

Section OnPosix.

Import Posix.

Lemma append_empty_r (s : string) : (s ++ "")%string = s.
Proof. induction s as [|c s IH]; simpl; [reflexivity | now rewrite IH]. Qed.

(** The two string forms of a file resource: the decoded one and the path. *)
Lemma file_forms (p : string) :
  uri_toString (uri_file p) true = ("file://" ++ p)%string
  /\ uri_fsPath (uri_file p) = p.
Proof.
  split; [|reflexivity].
  unfold uri_toString, uri_file. cbn. now rewrite !append_empty_r.
Qed.

Lemma file_forms_differ (p : string) :
  uri_toString (uri_file p) true <> uri_fsPath (uri_file p).
Proof.
  destruct (file_forms p) as [-> ->]. intros H.
  apply (f_equal String.length) in H. cbn in H. lia.
Qed.

(** With file resources for roots, the comparison of [doSetRoots] finds a
    change as soon as there is a current root. *)
Lemma file_roots_never_unchanged (p : string) (ps : list string)
  (newRoots : list Uri) :
  equals (map (fun root => uri_fsPath root) (map uri_file (p :: ps)))
    (@validateRoots platform (Some (map uri_file (p :: ps) ++ newRoots)))
  = false.
Proof.
  unfold validateRoots. rewrite distinct_first_occurrences.
  cbn [map app first_occurrences equals toString platform].
  destruct (String.eqb _ _) eqn:H; [|reflexivity].
  apply String.eqb_eq in H. symmetry in H. now apply file_forms_differ in H.
Qed.

(** C1 (the code departs from the claim): with the current roots
    [file:///home/user/a] and [file:///home/user/b] and a configuration,
    [addRoots([])] compares the paths of the roots with their decoded string
    forms, finds them different and calls the writer. *)
Theorem addRoots_nothing_to_add_still_writes :
  map (fun root => fsPath root) [A; B] = ["/home/user/a"; "/home/user/b"]
  /\ validateRoots (Some ([A; B] ++ []))
     = ["file:///home/user/a"; "file:///home/user/b"]
  /\ addRoots (Some [])
       (world false "insider" [A; B] (Some workspaceFile))
     = (Returned (Fulfilled undefined),
        [CGetWorkspace; CGetWorkspace; CGetWorkspace;
         CWrite workspaceFile
           {| key := "folders";
              value :=
                json_strings ["file:///home/user/a"; "file:///home/user/b"] |}
           true]).
Proof. repeat split. Qed.

(** C2 (the code departs from the claim): [supported] answers [false] in a
    single-folder workspace and in a stable build, and yet [addRoots] and
    [removeRoots] go on to read the context and to reconcile, here down to
    the prompt, the new file and the new window. *)
Theorem entry_points_ignore_gate :
  outcome supported (world true "insider" [A] None) = Returned false
  /\ outcome supported (world false "stable" [A] None) = Returned false
  /\ addRoots (Some [B]) (world true "insider" [A] None)
     = (Returned (Fulfilled undefined),
        [CGetWorkspace; CGetWorkspace; CGetWorkspace; prompt; CGenerateUuid;
         CAppSettingsHome;
         CWrite
           (uri_file
              "/home/user/.config/Code/User/1b4e28ba-2fa1-11d2-883f-0016d3cca427.vscode")
           {| key := "";
              value :=
                JObject
                  [("ID", JString "1b4e28ba-2fa1-11d2-883f-0016d3cca427");
                   ("folders",
                    json_strings
                      ["file:///home/user/a"; "file:///home/user/b"])] |}
           true;
         COpenWindow
           ["/home/user/.config/Code/User/1b4e28ba-2fa1-11d2-883f-0016d3cca427.vscode"]])
  /\ removeRoots (Some [A]) (world false "stable" [A] None)
     = (Returned (Fulfilled null),
        [CGetWorkspace; CGetWorkspace; CGetWorkspace]).
Proof. repeat split. Qed.

(** Current roots [A, B]: [addRoots([C])], and [addRoots([C, A, C])] with its
    duplicates, give the writer the three string forms, in this order. *)
Lemma addRoots_writes_folders_witness :
  addRoots (Some [C]) (world false "insider" [A; B] (Some workspaceFile))
  = (Returned (Fulfilled undefined),
     [CGetWorkspace; CGetWorkspace; CGetWorkspace;
      CWrite workspaceFile
        {| key := "folders";
           value :=
             json_strings
               ["file:///home/user/a"; "file:///home/user/b";
                "file:///home/user/c"] |}
        true])
  /\ addRoots (Some [C; A; C])
       (world false "insider" [A; B] (Some workspaceFile))
     = (Returned (Fulfilled undefined),
        [CGetWorkspace; CGetWorkspace; CGetWorkspace;
         CWrite workspaceFile
           {| key := "folders";
              value :=
                json_strings
                  ["file:///home/user/a"; "file:///home/user/b";
                   "file:///home/user/c"] |}
           true])
  /\ validateRoots (Some ([A; B] ++ [C; A; C]))
     = ["file:///home/user/a"; "file:///home/user/b"; "file:///home/user/c"].
Proof.
  destruct (addRoots_writes_folders
              (world false "insider" [A; B] (Some workspaceFile)) [C]
              workspaceFile eq_refl) as [_ [_ [Hone _]]].
  destruct (addRoots_writes_folders
              (world false "insider" [A; B] (Some workspaceFile)) [C; A; C]
              workspaceFile eq_refl) as [Hdesired [_ [Hmore _]]].
  split; [|split].
  - apply Hone.
    + repeat constructor; cbn; intuition discriminate.
    + discriminate.
  - apply Hmore.
    + repeat constructor; cbn; intuition discriminate.
    + discriminate.
  - exact Hdesired.
Defined.

(** C4 as stated fails: the root [file:///home/user/a?x#y] (a query with a
    hash) and the entry [file:///home/user/a?x#y] (a query and a fragment)
    have the same decoded string form, the one the Validator takes, and yet
    [removeRoots] keeps the root. *)
Lemma removeRoots_not_validator_form :
  toString queryWithHash true = toString queryAndFragment true
  /\ removeRoots (Some [queryAndFragment])
       (world false "insider" [queryWithHash] (Some workspaceFile))
     <> reconcile_after_read
          (fun workspace =>
             roots_without (fun root => toString root true)
               (roots workspace) [queryAndFragment])
          (world false "insider" [queryWithHash] (Some workspaceFile)).
Proof.
  split; [reflexivity|]. vm_compute. discriminate.
Qed.

(** Current roots [A, B, C], [removeRoots([B])]: the desired roots are
    [A, C]. *)
Example removeRoots_middle :
  roots_without (fun root => toString root false) [A; B; C] [B] = [A; C]
  /\ removeRoots (Some [B])
       (world false "insider" [A; B; C] (Some workspaceFile))
     = (Returned (Fulfilled undefined),
        [CGetWorkspace; CGetWorkspace; CGetWorkspace;
         CWrite workspaceFile
           {| key := "folders";
              value :=
                json_strings ["file:///home/user/a"; "file:///home/user/c"] |}
           true]).
Proof. split; reflexivity. Qed.

(** C6 as stated fails: the validated set [/home/user/a] is not empty and
    there is no configuration, but it is the current set, and the
    reconciliation stops before the create-new-workspace path. *)
Lemma unchanged_roots_take_no_create_path :
  validateRoots (Some [bare]) <> []
  /\ configuration (w_getWorkspace (world false "insider" [bare] None)) = None
  /\ existsb on_create_path
       (trace (doSetRoots (Some [bare])) (world false "insider" [bare] None))
     = false
  /\ doSetRoots (Some [bare]) (world false "insider" [bare] None)
     = (Returned (Fulfilled undefined), [CGetWorkspace; CGetWorkspace]).
Proof. repeat split. discriminate. Qed.

Lemma create_path_iff_changed_witness :
  doSetRoots (Some [A]) (world false "insider" [] None)
  = (outcome (createWorkspace ["file:///home/user/a"])
       (world false "insider" [] None),
     [CGetWorkspace; CGetWorkspace]
     ++ trace (createWorkspace ["file:///home/user/a"])
          (world false "insider" [] None)).
Proof.
  apply (create_path_iff_changed (world false "insider" [] None) (Some [A])).
  reflexivity.
Defined.

Lemma createWorkspace_stops_at_failure_witness :
  createWorkspace ["file:///home/user/a"] (world_dismissed [] None)
  = (Returned (Rejected Canceled), [prompt])
  /\ existsb is_openWindow
       (trace (createWorkspace ["file:///home/user/a"])
          (world_readonly [] None)) = false.
Proof.
  split.
  - apply (createWorkspace_stops_at_failure (world_dismissed [] None)
             ["file:///home/user/a"]).
    reflexivity.
  - apply (proj2 (createWorkspace_stops_at_failure (world_readonly [] None)
                    ["file:///home/user/a"]) (ServiceError "EACCES")).
    reflexivity.
Defined.

(** C8 as stated fails: the document written for a new workspace has no
    field [id]; the identifier is under [ID]. *)
Lemma new_document_has_no_id_field :
  map (json_field "id")
    (written_documents
       (trace (_doCreateWorkspace ["file:///home/user/a"])
          (world false "insider" [] None)))
  = [None]
  /\ map (json_field "ID")
       (written_documents
          (trace (_doCreateWorkspace ["file:///home/user/a"])
             (world false "insider" [] None)))
     = [Some (JString "1b4e28ba-2fa1-11d2-883f-0016d3cca427")].
Proof. split; reflexivity. Qed.

Lemma doSetRoots_empty_is_noop_witness :
  doSetRoots (Some []) (world false "insider" [A] (Some workspaceFile))
  = (Returned (Fulfilled null), [CGetWorkspace; CGetWorkspace]).
Proof.
  apply (doSetRoots_empty_is_noop
           (world false "insider" [A] (Some workspaceFile)) (Some []));
    reflexivity.
Defined.

End OnPosix.

(** * Further properties of the service *)

(** ** The behaviours of a reconciliation *)

Section Behaviour.

Context {platform : Platform}.

(** The six ways [doSetRoots] can go. *)
Lemma doSetRoots_cases (w : World) (newRoots : Nullable (list URI)) :
  (equals (map (fun root => fsPath root) (roots (w_getWorkspace w)))
     (validateRoots newRoots) = true
   /\ doSetRoots newRoots w
      = (Returned (Fulfilled undefined), [CGetWorkspace; CGetWorkspace]))
  \/ (equals (map (fun root => fsPath root) (roots (w_getWorkspace w)))
        (validateRoots newRoots) = false
      /\ validateRoots newRoots = []
      /\ doSetRoots newRoots w
         = (Returned (Fulfilled null), [CGetWorkspace; CGetWorkspace]))
  \/ (equals (map (fun root => fsPath root) (roots (w_getWorkspace w)))
        (validateRoots newRoots) = false
      /\ validateRoots newRoots <> []
      /\ exists config,
           configuration (w_getWorkspace w) = Some config
           /\ doSetRoots newRoots w
              = (Returned
                   (w_write w config
                      {| key := "folders";
                         value := json_strings (validateRoots newRoots) |}
                      true),
                 [CGetWorkspace; CGetWorkspace;
                  CWrite config
                    {| key := "folders";
                       value := json_strings (validateRoots newRoots) |}
                    true]))
  \/ (equals (map (fun root => fsPath root) (roots (w_getWorkspace w)))
        (validateRoots newRoots) = false
      /\ validateRoots newRoots <> []
      /\ configuration (w_getWorkspace w) = None
      /\ ((exists e,
             prompt_answer w = Rejected e
             /\ doSetRoots newRoots w
                = (Returned (Rejected e),
                   [CGetWorkspace; CGetWorkspace; prompt]))
          \/ (exists answer e,
                prompt_answer w = Fulfilled answer
                /\ w_write w (URI_file (new_file w))
                     (new_document w (validateRoots newRoots)) true
                   = Rejected e
                /\ doSetRoots newRoots w
                   = (Returned (Rejected e),
                      [CGetWorkspace; CGetWorkspace; prompt; CGenerateUuid;
                       CAppSettingsHome;
                       CWrite (URI_file (new_file w))
                         (new_document w (validateRoots newRoots)) true]))
          \/ (exists answer done,
                prompt_answer w = Fulfilled answer
                /\ w_write w (URI_file (new_file w))
                     (new_document w (validateRoots newRoots)) true
                   = Fulfilled done
                /\ doSetRoots newRoots w
                   = (Returned (w_openWindow w [new_file w]),
                      [CGetWorkspace; CGetWorkspace; prompt; CGenerateUuid;
                       CAppSettingsHome;
                       CWrite (URI_file (new_file w))
                         (new_document w (validateRoots newRoots)) true;
                       COpenWindow [new_file w]])))).
Proof.
  rewrite doSetRoots_run.
  destruct (equals _ _) eqn:Hequals; [left; split; reflexivity|].
  right.
  destruct (Nat.eqb _ 0) eqn:Hempty; cbn [negb].
  { apply length_zero_nil in Hempty. left. repeat split; assumption. }
  assert (Hne : validateRoots newRoots <> []).
  { intros Hnil. rewrite Hnil in Hempty. discriminate. }
  right.
  destruct (configuration (w_getWorkspace w)) as [config|] eqn:Hconfig.
  { left. repeat split; try assumption. exists config. split; reflexivity. }
  right. repeat split; try assumption.
  unfold outcome, trace. rewrite createWorkspace_run.
  destruct (prompt_answer w) as [answer|e] eqn:Hprompt.
  - destruct (w_write w _ _ true) as [done|e] eqn:Hwrite.
    + right. right. exists answer, done. repeat split.
    + right. left. exists answer, e. repeat split.
  - left. exists e. split; reflexivity.
Qed.

(** The entry points with an array for argument: one read of the context,
    then [doSetRoots]. *)
Lemma addRoots_after_read (w : World) (rootsToAdd : list URI) :
  addRoots (Some rootsToAdd) w
  = (outcome (doSetRoots (Some (roots (w_getWorkspace w) ++ rootsToAdd))) w,
     CGetWorkspace
     :: trace (doSetRoots (Some (roots (w_getWorkspace w) ++ rootsToAdd))) w).
Proof. now rewrite addRoots_run, reconcile_after_read_run. Qed.

Lemma roots_without_indexOf (current rootsToRemove : list URI) :
  filter
    (fun root =>
       Z.eqb
         (indexOf (map (fun root => toString root false) rootsToRemove)
            (toString root false)) (-1))
    current
  = roots_without (fun root => toString root false) current rootsToRemove.
Proof. apply filter_ext. intros root. apply indexOf_minus_one. Qed.

Lemma removeRoots_after_read (w : World) (rootsToRemove : list URI) :
  removeRoots (Some rootsToRemove) w
  = (outcome
       (doSetRoots
          (Some (roots_without (fun root => toString root false)
                   (roots (w_getWorkspace w)) rootsToRemove))) w,
     CGetWorkspace
     :: trace
          (doSetRoots
             (Some (roots_without (fun root => toString root false)
                      (roots (w_getWorkspace w)) rootsToRemove))) w).
Proof.
  unfold removeRoots. cbn [ToBoolean negb].
  unfold bind, array_map, getWorkspace, call, ret, outcome, trace.
  cbn -[doSetRoots]. rewrite roots_without_indexOf.
  destruct (doSetRoots _ w); reflexivity.
Qed.

End Behaviour.

(** ** What every run does and never does *)

Section Runs.

Context {platform : Platform}.

Ltac by_cases w newRoots :=
  destruct (doSetRoots_cases w newRoots)
    as [[Heq Hrun]
       |[[Heq [Hnil Hrun]]
        |[[Heq [Hne [config [Hconfig Hrun]]]]
         |[Heq [Hne [Hconfig
             [[e [Hprompt Hrun]]
             |[[answer [e [Hprompt [Hwrite Hrun]]]]
              |[answer [done [Hprompt [Hwrite Hrun]]]]]]]]]]]].

Lemma call_rejected_prompt (w : World) :
  call_rejected w prompt = is_rejected (prompt_answer w).
Proof. reflexivity. Qed.

Lemma doSetRoots_fails_fast (w : World) (newRoots : Nullable (list URI)) :
  stops_at_rejection w (trace (doSetRoots newRoots) w) = true
  /\ outcome_rejected (outcome (doSetRoots newRoots) w)
     = existsb (call_rejected w) (trace (doSetRoots newRoots) w)
  /\ outcome_thrown (outcome (doSetRoots newRoots) w) = false.
Proof.
  unfold trace, outcome. by_cases w newRoots; rewrite Hrun;
    cbn [fst snd stops_at_rejection existsb outcome_rejected outcome_thrown
         is_rejected orb];
    rewrite ?call_rejected_prompt; cbn [call_rejected];
    rewrite ?Hprompt, ?Hwrite; cbn [is_rejected orb].
  - repeat split.
  - repeat split.
  - destruct (w_write w config _ true); repeat split.
  - repeat split.
  - repeat split.
  - destruct (w_openWindow w _); repeat split.
Qed.

(** X1: in every run of [addRoots], [removeRoots] (on an array) and
    [doSetRoots], a collaborator call whose promise is rejected is the last
    call made, and the promise of the operation is rejected exactly when one
    of its calls was: a failure is neither swallowed nor followed by further
    effects. *)
Theorem rejection_ends_the_run (w : World) (newRoots : Nullable (list URI))
  (rootsToAdd rootsToRemove : list URI) :
  (stops_at_rejection w (trace (doSetRoots newRoots) w) = true
   /\ outcome_rejected (outcome (doSetRoots newRoots) w)
      = existsb (call_rejected w) (trace (doSetRoots newRoots) w))
  /\ (stops_at_rejection w (trace (addRoots (Some rootsToAdd)) w) = true
      /\ outcome_rejected (outcome (addRoots (Some rootsToAdd)) w)
         = existsb (call_rejected w) (trace (addRoots (Some rootsToAdd)) w))
  /\ (stops_at_rejection w (trace (removeRoots (Some rootsToRemove)) w) = true
      /\ outcome_rejected (outcome (removeRoots (Some rootsToRemove)) w)
         = existsb (call_rejected w)
             (trace (removeRoots (Some rootsToRemove)) w)).
Proof.
  split; [|split].
  - split; apply doSetRoots_fails_fast.
  - unfold trace, outcome. rewrite addRoots_after_read.
    cbn [fst snd stops_at_rejection existsb call_rejected orb].
    split; apply doSetRoots_fails_fast.
  - unfold trace, outcome. rewrite removeRoots_after_read.
    cbn [fst snd stops_at_rejection existsb call_rejected orb].
    split; apply doSetRoots_fails_fast.
Qed.

(** X2: for an argument that is [null] or an array whose elements are all
    resources (an array that holds a [null] is not an argument of this model;
    there the source throws at [root.toString]), an entry point throws when
    the argument is [null] and only then, and [doSetRoots] does not throw:
    on an array of resources every failure is a rejected promise. *)
Theorem throws_only_on_null (w : World) (argument : Nullable (list URI)) :
  (outcome_thrown (outcome (addRoots argument) w) = true <-> argument = None)
  /\ (outcome_thrown (outcome (removeRoots argument) w) = true
      <-> argument = None)
  /\ outcome_thrown (outcome (doSetRoots argument) w) = false.
Proof.
  split; [|split].
  - destruct argument as [l|].
    + unfold outcome at 1. rewrite addRoots_after_read. cbn [fst].
      rewrite (proj2 (proj2 (doSetRoots_fails_fast w _))).
      split; discriminate.
    + split; reflexivity.
  - destruct argument as [l|].
    + unfold outcome at 1. rewrite removeRoots_after_read. cbn [fst].
      rewrite (proj2 (proj2 (doSetRoots_fails_fast w _))).
      split; discriminate.
    + split; reflexivity.
  - apply doSetRoots_fails_fast.
Qed.

(** X3: [doSetRoots] reads the context exactly twice, an entry point on an
    array three times, and each of them calls the writer, the prompt and the
    window opener at most once. *)
Theorem calls_are_counted (w : World) (newRoots : Nullable (list URI))
  (rootsToAdd rootsToRemove : list URI) :
  (count_calls is_getWorkspace (trace (doSetRoots newRoots) w) = 2
   /\ count_calls is_write (trace (doSetRoots newRoots) w) <= 1
   /\ count_calls is_prompt (trace (doSetRoots newRoots) w) <= 1
   /\ count_calls is_openWindow (trace (doSetRoots newRoots) w) <= 1)
  /\ count_calls is_getWorkspace (trace (addRoots (Some rootsToAdd)) w) = 3
  /\ count_calls is_write (trace (addRoots (Some rootsToAdd)) w) <= 1
  /\ count_calls is_getWorkspace (trace (removeRoots (Some rootsToRemove)) w)
     = 3
  /\ count_calls is_write (trace (removeRoots (Some rootsToRemove)) w) <= 1.
Proof.
  assert (H : forall argument,
    count_calls is_getWorkspace (trace (doSetRoots argument) w) = 2
    /\ count_calls is_write (trace (doSetRoots argument) w) <= 1
    /\ count_calls is_prompt (trace (doSetRoots argument) w) <= 1
    /\ count_calls is_openWindow (trace (doSetRoots argument) w) <= 1).
  { intros argument. unfold trace. by_cases w argument; rewrite Hrun;
      cbn; repeat split; lia. }
  split; [apply H|].
  unfold trace at 1 2 3 4.
  rewrite addRoots_after_read, removeRoots_after_read.
  cbn [snd count_calls filter is_getWorkspace is_write length].
  destruct (H (Some (roots (w_getWorkspace w) ++ rootsToAdd)))
    as [Ha [Hb _]].
  destruct (H (Some (roots_without (fun root => toString root false)
                       (roots (w_getWorkspace w)) rootsToRemove)))
    as [Hc [Hd _]].
  unfold count_calls in *. lia.
Qed.

Lemma doSetRoots_set_gate (w : World) (has : bool) (quality : string)
  (newRoots : Nullable (list URI)) :
  doSetRoots newRoots (set_gate has quality w) = doSetRoots newRoots w.
Proof.
  rewrite !doSetRoots_run. unfold outcome, trace.
  rewrite !createWorkspace_run. reflexivity.
Qed.

(** X4: what [hasWorkspace()] and [appQuality] answer has no effect on
    [addRoots] and [removeRoots], whatever the argument: neither of them is
    ever called, and the run is the same in a world that differs in them
    only. *)
Theorem entry_points_never_read_gate (w : World) (has : bool)
  (quality : string) (argument : Nullable (list URI)) :
  addRoots argument (set_gate has quality w) = addRoots argument w
  /\ removeRoots argument (set_gate has quality w) = removeRoots argument w
  /\ existsb is_gate_read (trace (addRoots argument) w) = false
  /\ existsb is_gate_read (trace (removeRoots argument) w) = false.
Proof.
  assert (H : forall l,
    existsb is_gate_read (trace (doSetRoots l) w) = false).
  { intros l. unfold trace. by_cases w l; rewrite Hrun; reflexivity. }
  destruct argument as [l|]; [|repeat split].
  unfold trace. rewrite !addRoots_after_read, !removeRoots_after_read.
  unfold outcome, trace. rewrite !doSetRoots_set_gate.
  cbn [snd existsb is_gate_read orb].
  repeat split; apply H.
Qed.

(** X5: [createWorkspace] does not look at the answer of the prompt: once
    the prompt is fulfilled, with Yes or with No, the run is the same; the
    new file is written with the new document, and the window is opened on it
    when that write is fulfilled. *)
Theorem createWorkspace_whatever_the_answer (w : World)
  (newRoots : list string) (yes no : Z) :
  createWorkspace newRoots (set_choice (Fulfilled yes) w)
  = createWorkspace newRoots (set_choice (Fulfilled no) w)
  /\ In (CWrite (URI_file (new_file w)) (new_document w newRoots) true)
       (trace (createWorkspace newRoots) (set_choice (Fulfilled no) w))
  /\ createWorkspace newRoots (set_choice (Fulfilled no) w)
     = match
         w_write w (URI_file (new_file w)) (new_document w newRoots) true
       with
       | Rejected e =>
           (Returned (Rejected e),
            [prompt; CGenerateUuid; CAppSettingsHome;
             CWrite (URI_file (new_file w)) (new_document w newRoots) true])
       | Fulfilled _ =>
           (Returned (w_openWindow w [new_file w]),
            [prompt; CGenerateUuid; CAppSettingsHome;
             CWrite (URI_file (new_file w)) (new_document w newRoots) true;
             COpenWindow [new_file w]])
       end.
Proof.
  unfold trace. rewrite !createWorkspace_run.
  unfold prompt_answer. cbn [set_choice w_choose].
  split; [reflexivity|]. split; [|reflexivity].
  change (w_write (set_choice (Fulfilled no) w)) with (w_write w).
  change (new_file (set_choice (Fulfilled no) w)) with (new_file w).
  change (new_document (set_choice (Fulfilled no) w) newRoots)
    with (new_document w newRoots).
  destruct (w_write w _ _ true); cbn [snd In]; tauto.
Qed.

End Runs.

(** ** What is written, and where *)

Section Writes.

Context {platform : Platform}.

Ltac by_cases w newRoots :=
  destruct (doSetRoots_cases w newRoots)
    as [[Heq Hrun]
       |[[Heq [Hnil Hrun]]
        |[[Heq [Hne [config [Hconfig Hrun]]]]
         |[Heq [Hne [Hconfig
             [[e [Hprompt Hrun]]
             |[[answer [e [Hprompt [Hwrite Hrun]]]]
              |[answer [done [Hprompt [Hwrite Hrun]]]]]]]]]]]].

Ltac each_call H :=
  cbn [snd fst In] in H;
  repeat match type of H with _ \/ _ => destruct H as [H|H] end;
  try contradiction; try discriminate.

Lemma validateRoots_NoDup (newRoots : Nullable (list URI)) :
  NoDup (validateRoots newRoots).
Proof.
  destruct newRoots as [l|]; [|constructor].
  unfold validateRoots. rewrite distinct_first_occurrences.
  apply first_occurrences_NoDup.
Qed.

Lemma validateRoots_In (l : list URI) (s : string) :
  In s (validateRoots (Some l)) <-> In s (forms true l).
Proof.
  unfold validateRoots, forms. rewrite distinct_first_occurrences.
  apply first_occurrences_In.
Qed.

Lemma validateRoots_app (current added : list URI) :
  validateRoots (Some (current ++ added))
  = validateRoots (Some current)
    ++ filter (fun s => negb (occurs s (forms true current)))
         (validateRoots (Some added)).
Proof.
  unfold validateRoots, forms. rewrite !distinct_first_occurrences, map_app.
  apply first_occurrences_app.
Qed.

(** The writes of a reconciliation carry the validated set. *)
Lemma doSetRoots_written (w : World) (newRoots : Nullable (list URI))
  (c : Call) :
  In c (trace (doSetRoots newRoots) w) ->
  is_write c = true ->
  written_folders c = Some (json_strings (validateRoots newRoots))
  /\ validateRoots newRoots <> [].
Proof.
  unfold trace. intros Hin Hwr.
  by_cases w newRoots; rewrite Hrun in Hin; unfold prompt in Hin;
    each_call Hin; subst c; try discriminate; split; try assumption;
    reflexivity.
Qed.

(** X6: every call of the writer that a reconciliation makes asks to save
    (flag [true]) and carries the validated set, which is not empty and has
    no duplicates; with a configuration, it is an edit of the key [folders]
    of that configuration, and without one, a whole document (empty key) for
    the new file. *)
Theorem every_write_of_doSetRoots (w : World) (newRoots : Nullable (list URI))
  (resource : URI) (edit : IJSONValue) (save : bool) :
  In (CWrite resource edit save) (trace (doSetRoots newRoots) w) ->
  save = true
  /\ written_folders (CWrite resource edit save)
     = Some (json_strings (validateRoots newRoots))
  /\ validateRoots newRoots <> []
  /\ NoDup (validateRoots newRoots)
  /\ match configuration (w_getWorkspace w) with
     | Some config => resource = config /\ key edit = "folders"
     | None => resource = URI_file (new_file w) /\ key edit = ""
     end.
Proof.
  intros Hin.
  destruct (doSetRoots_written w newRoots _ Hin eq_refl) as [Hfolders Hne'].
  split; [|split; [assumption|split; [assumption|split;
    [apply validateRoots_NoDup|]]]];
    unfold trace in Hin;
    by_cases w newRoots; rewrite Hrun in Hin; unfold prompt in Hin;
    each_call Hin; injection Hin as <- <- <-; rewrite ?Hconfig;
    try reflexivity; split; reflexivity.
Qed.

(** X7: a reconciliation opens a window only on the file it has just
    written: there was no configuration, the prompt and the write of the new
    file were fulfilled, the window is asked for that file alone, and the
    promise of the opener is the result of the reconciliation. *)
Theorem window_opens_the_new_file (w : World) (newRoots : Nullable (list URI))
  (paths : list string) :
  In (COpenWindow paths) (trace (doSetRoots newRoots) w) ->
  paths = [new_file w]
  /\ configuration (w_getWorkspace w) = None
  /\ is_rejected (prompt_answer w) = false
  /\ is_rejected
       (w_write w (URI_file (new_file w))
          (new_document w (validateRoots newRoots)) true) = false
  /\ In (CWrite (URI_file (new_file w))
           (new_document w (validateRoots newRoots)) true)
       (trace (doSetRoots newRoots) w)
  /\ outcome (doSetRoots newRoots) w = Returned (w_openWindow w [new_file w]).
Proof.
  unfold trace, outcome. intros Hin.
  by_cases w newRoots; rewrite Hrun in Hin |- *; unfold prompt in Hin;
    each_call Hin.
  injection Hin as <-. rewrite Hprompt, Hwrite.
  repeat split; try assumption. cbn. tauto.
Qed.

(** X8: [addRoots] keeps the current folders first and in their order, and
    appends the string forms of [rootsToAdd] that are not among them, each
    once: this is the folder list of every write it makes. *)
Theorem addRoots_appends (w : World) (rootsToAdd : list URI) (c : Call) :
  In c (trace (addRoots (Some rootsToAdd)) w) ->
  is_write c = true ->
  written_folders c
  = Some
      (json_strings
         (validateRoots (Some (roots (w_getWorkspace w)))
          ++ filter
               (fun s =>
                  negb (occurs s (forms true (roots (w_getWorkspace w)))))
               (validateRoots (Some rootsToAdd)))).
Proof.
  unfold trace. rewrite addRoots_after_read. cbn [snd In].
  intros [<-|Hin] Hwr; [discriminate|].
  rewrite <- validateRoots_app.
  now apply (doSetRoots_written w _ c Hin).
Qed.

(** X9: the folder list of every write that [removeRoots] makes has no
    duplicates and holds exactly the decoded string forms [toString(true)] of
    the current roots that are kept, those whose encoded string form
    [toString()] is not that of an entry of [rootsToRemove]: a folder that is
    not a current root is never persisted, and the folder of every kept root
    is.  (The folder of a removed root is persisted all the same when a kept
    root has the same decoded form.) *)
Theorem removeRoots_persists_the_rest (w : World) (rootsToRemove : list URI)
  (c : Call) :
  In c (trace (removeRoots (Some rootsToRemove)) w) ->
  is_write c = true ->
  exists folders : list string,
    written_folders c = Some (json_strings folders)
    /\ NoDup folders
    /\ forall s : string,
         In s folders
         <-> exists root,
               In root (roots (w_getWorkspace w))
               /\ occurs (toString root false) (forms false rootsToRemove)
                  = false
               /\ toString root true = s.
Proof.
  unfold trace. rewrite removeRoots_after_read. cbn [snd In].
  intros [<-|Hin] Hwr; [discriminate|].
  destruct (doSetRoots_written w _ c Hin Hwr) as [Hfolders _].
  eexists. split; [exact Hfolders|]. split; [apply validateRoots_NoDup|].
  intros s. rewrite validateRoots_In. unfold forms, roots_without.
  rewrite in_map_iff. split.
  - intros [root [Hs Hroot]]. apply filter_In in Hroot.
    destruct Hroot as [Hroot Hkept]. apply negb_true_iff in Hkept.
    exists root. repeat split; assumption.
  - intros [root [Hroot [Hkept Hs]]]. exists root. split; [assumption|].
    apply filter_In. split; [assumption|]. now apply negb_true_iff.
Qed.

End Writes.

(** ** Requests that change nothing *)

Section NoChange.

Context {platform : Platform}.

Lemma validateRoots_empty_array : validateRoots (Some []) = [].
Proof. reflexivity. Qed.

(** X10: when every current root is matched by an entry of [rootsToRemove]
    (so when [rootsToRemove] is the list of the current roots itself),
    [removeRoots] reads the context three times and does nothing else: the
    configuration keeps its folders, nothing is prompted, and the promise is
    fulfilled. *)
Theorem removeRoots_everything_is_silent (w : World)
  (rootsToRemove : list URI) :
  forallb
    (fun root => occurs (toString root false) (forms false rootsToRemove))
    (roots (w_getWorkspace w)) = true ->
  removeRoots (Some rootsToRemove) w
  = (Returned
       (Fulfilled
          match roots (w_getWorkspace w) with
          | [] => undefined
          | _ :: _ => null
          end),
     [CGetWorkspace; CGetWorkspace; CGetWorkspace]).
Proof.
  intros Hall. rewrite removeRoots_after_read.
  assert (Hnone :
    roots_without (fun root => toString root false)
      (roots (w_getWorkspace w)) rootsToRemove = []).
  { unfold roots_without. apply filter_none. intros root Hroot.
    rewrite forallb_forall in Hall. unfold forms in Hall.
    now rewrite (Hall root Hroot). }
  rewrite Hnone. unfold outcome, trace.
  rewrite doSetRoots_run, validateRoots_empty_array.
  destruct (roots (w_getWorkspace w)); reflexivity.
Qed.

(** X11: when no current root is matched by an entry of [rootsToRemove],
    [removeRoots] does what [addRoots([])] does. *)
Theorem removeRoots_of_strangers (w : World) (rootsToRemove : list URI) :
  forallb
    (fun root =>
       negb (occurs (toString root false) (forms false rootsToRemove)))
    (roots (w_getWorkspace w)) = true ->
  removeRoots (Some rootsToRemove) w = addRoots (Some []) w.
Proof.
  intros Hnone. rewrite removeRoots_after_read, addRoots_after_read.
  unfold roots_without. unfold forms in Hnone.
  rewrite (forallb_filter_id _ _ Hnone), app_nil_r. reflexivity.
Qed.

(** X12: when the decoded string form of every root of [rootsToAdd] is that
    of a current root, [addRoots] does what [addRoots([])] does: a root is
    never added twice. *)
Theorem addRoots_of_members (w : World) (rootsToAdd : list URI) :
  forallb (fun s => occurs s (forms true (roots (w_getWorkspace w))))
    (forms true rootsToAdd) = true ->
  addRoots (Some rootsToAdd) w = addRoots (Some []) w.
Proof.
  intros Hall. rewrite !addRoots_after_read.
  assert (Hsame :
    validateRoots (Some (roots (w_getWorkspace w) ++ rootsToAdd))
    = validateRoots (Some (roots (w_getWorkspace w) ++ []))).
  { rewrite !validateRoots_app, validateRoots_empty_array. f_equal.
    cbn [filter]. apply filter_none. intros s Hs.
    apply validateRoots_In in Hs. rewrite forallb_forall in Hall.
    now rewrite (Hall s Hs). }
  unfold outcome, trace. rewrite !doSetRoots_run, Hsame. reflexivity.
Qed.

(** X13: when the paths of the current roots are, one by one, the validated
    string forms of the desired roots, an entry point reads the context three
    times and does nothing else; its promise is fulfilled with [undefined]. *)
Theorem entry_points_unchanged (w : World) (rootsToAdd rootsToRemove : list URI) :
  (equals (map (fun root => fsPath root) (roots (w_getWorkspace w)))
     (validateRoots (Some (roots (w_getWorkspace w) ++ rootsToAdd))) = true ->
   addRoots (Some rootsToAdd) w
   = (Returned (Fulfilled undefined),
      [CGetWorkspace; CGetWorkspace; CGetWorkspace]))
  /\ (equals (map (fun root => fsPath root) (roots (w_getWorkspace w)))
        (validateRoots
           (Some (roots_without (fun root => toString root false)
                    (roots (w_getWorkspace w)) rootsToRemove))) = true ->
      removeRoots (Some rootsToRemove) w
      = (Returned (Fulfilled undefined),
         [CGetWorkspace; CGetWorkspace; CGetWorkspace])).
Proof.
  split; intros Hsame.
  - rewrite addRoots_after_read. unfold outcome, trace.
    rewrite doSetRoots_run, Hsame. reflexivity.
  - rewrite removeRoots_after_read. unfold outcome, trace.
    rewrite doSetRoots_run, Hsame. reflexivity.
Qed.

End NoChange.

(** ** The further properties on the concrete platform *)

Section MoreOnPosix.

Import Posix.

Ltac in_trace := cbn; repeat (first [left; reflexivity | right]).

Lemma every_write_of_doSetRoots_witness :
  written_folders
    (CWrite workspaceFile
       {| key := "folders";
          value :=
            json_strings ["file:///home/user/a"; "file:///home/user/b"] |}
       true)
  = Some (json_strings (validateRoots (Some [A; B; A])))
  /\ NoDup (validateRoots (Some [A; B; A])).
Proof.
  pose proof (every_write_of_doSetRoots
                (world false "insider" [A] (Some workspaceFile))
                (Some [A; B; A]) workspaceFile
                {| key := "folders";
                   value :=
                     json_strings
                       ["file:///home/user/a"; "file:///home/user/b"] |}
                true) as H.
  cbn in H. destruct H as [_ [Hfolders [_ [Hnodup _]]]].
  - right. right. left. reflexivity.
  - split; [exact Hfolders | exact Hnodup].
Defined.

Lemma window_opens_the_new_file_witness :
  outcome (doSetRoots (Some [A])) (world_no_window [] None)
  = Returned (Rejected (ServiceError "no display")).
Proof.
  apply (window_opens_the_new_file (world_no_window [] None) (Some [A])
           ["/home/user/.config/Code/User/1b4e28ba-2fa1-11d2-883f-0016d3cca427.vscode"]).
  in_trace.
Defined.

Lemma addRoots_appends_witness :
  written_folders
    (CWrite workspaceFile
       {| key := "folders";
          value :=
            json_strings
              ["file:///home/user/b"; "file:///home/user/a";
               "file:///home/user/c"] |}
       true)
  = Some
      (json_strings
         (validateRoots (Some [B; A])
          ++ filter (fun s => negb (occurs s (forms true [B; A])))
               (validateRoots (Some [A; C; C])))).
Proof.
  apply (addRoots_appends
           (world false "insider" [B; A] (Some workspaceFile)) [A; C; C]).
  - in_trace.
  - reflexivity.
Defined.

Lemma removeRoots_persists_the_rest_witness :
  exists folders : list string,
    written_folders
      (CWrite workspaceFile
         {| key := "folders";
            value :=
              json_strings ["file:///home/user/a"; "file:///home/user/c"] |}
         true)
    = Some (json_strings folders)
    /\ NoDup folders
    /\ forall s : string,
         In s folders
         <-> exists root,
               In root [A; B; C]
               /\ occurs (toString root false) (forms false [B]) = false
               /\ toString root true = s.
Proof.
  apply (removeRoots_persists_the_rest
           (world false "insider" [A; B; C] (Some workspaceFile)) [B]).
  - in_trace.
  - reflexivity.
Defined.

Lemma removeRoots_everything_is_silent_witness :
  removeRoots (Some [B; A; C])
    (world false "insider" [A; B] (Some workspaceFile))
  = (Returned (Fulfilled null),
     [CGetWorkspace; CGetWorkspace; CGetWorkspace]).
Proof.
  apply (removeRoots_everything_is_silent
           (world false "insider" [A; B] (Some workspaceFile)) [B; A; C]).
  reflexivity.
Defined.

Lemma removeRoots_of_strangers_witness :
  removeRoots (Some [C]) (world false "insider" [A; B] (Some workspaceFile))
  = addRoots (Some []) (world false "insider" [A; B] (Some workspaceFile)).
Proof.
  apply (removeRoots_of_strangers
           (world false "insider" [A; B] (Some workspaceFile)) [C]).
  reflexivity.
Defined.

Lemma addRoots_of_members_witness :
  addRoots (Some [B; A; B])
    (world false "insider" [A; B] (Some workspaceFile))
  = addRoots (Some []) (world false "insider" [A; B] (Some workspaceFile)).
Proof.
  apply (addRoots_of_members
           (world false "insider" [A; B] (Some workspaceFile)) [B; A; B]).
  reflexivity.
Defined.

Lemma entry_points_unchanged_witness :
  addRoots (Some [bare]) (world false "insider" [bare] None)
  = (Returned (Fulfilled undefined),
     [CGetWorkspace; CGetWorkspace; CGetWorkspace])
  /\ removeRoots (Some [A]) (world false "insider" [bare] None)
     = (Returned (Fulfilled undefined),
        [CGetWorkspace; CGetWorkspace; CGetWorkspace]).
Proof.
  split.
  - apply (entry_points_unchanged (world false "insider" [bare] None)
             [bare] [A]).
    reflexivity.
  - apply (entry_points_unchanged (world false "insider" [bare] None)
             [bare] [A]).
    reflexivity.
Defined.

End MoreOnPosix.
